(** * Raspberry Pi Telegram Bot: relay control and supervising run loop

    A shallow embedding of [raspberry_pi_telegram_bot.py].  The handlers
    of the script are functions in a small state/error/trace monad over a
    [world] made of the GPIO driver state and the LCD state; every call
    to the driver, the display, the logger or the bot client leaves an
    [event] in the trace, in program order.  What the script cannot
    decide is a parameter of the development: the part of [int()] that
    depends on the interpreter ([Runtime]) and the behaviour of the
    transport inside [bot.polling] ([transport]). *)

From Stdlib Require Import ZArith String Ascii List.
From Stdlib Require Import Decimal DecimalString.
From stdpp Require Import base option gmap.
Import ListNotations.

Local Open Scope Z_scope.
Local Open Scope string_scope.
Local Open Scope list_scope.

Infix "+:+" := String.append (at level 60, right associativity).

(** ** Python values used by the script *)

(** What [int()] makes of a literal with characters outside ASCII
    (digits and blanks of other scripts) or of a very long literal
    depends on the version of the interpreter and of its Unicode
    tables.  The script runs on the interpreter it is given: the model
    takes that part of [int()] from the runtime. *)
Class Runtime : Type := { int_other : string -> option Z }.

Module Py.

(** [f'{n:d}'] for an [int]. *)
Definition fmt_d (n : Z) : string := NilZero.string_of_int (Z.to_int n).

(** Characters that [int()] strips around an ASCII literal: tab, line
    feed, vertical tab, form feed, carriage return and space. *)
Definition is_space (c : ascii) : bool :=
  let n := nat_of_ascii c in
  (((9 <=? n) && (n <=? 13)) || (n =? 32))%nat.

Definition digit_of (c : ascii) : option Z :=
  let n := nat_of_ascii c in
  if ((48 <=? n) && (n <=? 57))%nat then Some (Z.of_nat (n - 48)) else None.

Fixpoint lstrip (s : string) : string :=
  match s with
  | String c s' => if is_space c then lstrip s' else s
  | EmptyString => EmptyString
  end.

(** Digits of a decimal literal; a single underscore may sit between
    two digits.  [prev] tells whether the previous character was a
    digit, [acc] is the value read so far. *)
Fixpoint digits (s : string) (prev : bool) (acc : Z) : option Z :=
  match s with
  | EmptyString => if prev then Some acc else None
  | String c s' =>
      match digit_of c with
      | Some d => digits s' true (10 * acc + d)
      | None =>
          if Ascii.eqb c "_" then
            if prev then
              match s' with
              | String c' _ =>
                  match digit_of c' with
                  | Some _ => digits s' false acc
                  | None => None
                  end
              | EmptyString => None
              end
            else None
          else if is_space c then
            (* trailing white space only *)
            if prev then
              match lstrip s' with
              | EmptyString => Some acc
              | _ => None
              end
            else None
          else None
      end
  end.

(** [int(s)] on a plain literal; [None] stands for [ValueError]. *)
Definition ascii_int (s : string) : option Z :=
  match lstrip s with
  | String "-" s' => option_map Z.opp (digits s' false 0)
  | String "+" s' => digits s' false 0
  | s' => digits s' false 0
  end.

(** A plain literal: ASCII characters only, and no longer than the
    number of digits every interpreter converts. *)
Fixpoint all_ascii (s : string) : bool :=
  match s with
  | EmptyString => true
  | String c s' => (nat_of_ascii c <? 128)%nat && all_ascii s'
  end.

Definition is_plain (s : string) : bool :=
  all_ascii s && (String.length s <=? 4300)%nat.

(** [int(s)]: [None] stands for [ValueError].  On a literal that is
    not plain the result is the one of the interpreter. *)
Definition int {rt : Runtime} (s : string) : option Z :=
  if is_plain s then ascii_int s else int_other s.

(** [s[n:]] *)
Fixpoint drop (n : nat) (s : string) : string :=
  match n, s with
  | O, _ => s
  | S n', String _ s' => drop n' s'
  | S _, EmptyString => EmptyString
  end.

(** [s.startswith(p)] *)
Definition startswith (s p : string) : bool := String.prefix p s.

End Py.

(** ** Exceptions *)

Inductive exn : Type :=
| KeyError (key : Z)
| ValueError (msg : string)
| InvalidLiteral (literal : string)   (* the ValueError of [int()] *)
| TypeError
| RuntimeError (msg : string)
| ChannelError (msg : string).

(** ** The GPIO driver (RPi.GPIO)

    The driver is an external collaborator; its operations follow the
    contract of the library.  Its state is the numbering mode and, for
    every channel this program has set up as an output, the level
    latched on the line.  A channel absent from the map is not set up:
    it is not driven by this program, and [input] and [output] raise
    [RuntimeError] on it.  [cleanup] puts every channel the program has
    set up back to an input and forgets the numbering mode. *)

Inductive level : Type := LOW | HIGH.

Inductive numbering : Type := BCM | BOARD.

Record gpio_state : Type := mk_gpio {
  gpio_mode : option numbering;
  gpio_out : gmap Z level
}.

(** ** The LCD (Adafruit_CharLCD behind a PCF8574 expander) *)

Record lcd_state : Type := mk_lcd {
  lcd_text : string;          (* characters written since the last clear *)
  lcd_backlight_pin : bool;   (* expander pin 3 *)
  lcd_backlight_attr : bool   (* the [backlight] attribute of the object *)
}.

Record world : Type := mk_world {
  gpio : gpio_state;
  lcd : lcd_state
}.

(** ** Bot client data *)

Record message : Type := mk_message {
  message_id : Z;
  chat_id : Z;
  first_name : string;
  last_name : option string
}.

Record callback_query : Type := mk_query {
  query_id : string;
  query_data : string;
  query_message : message
}.

Inductive button : Type :=
| UrlButton (text url : string)
| CallbackButton (text callback_data : string).

(** An inline keyboard is a list of rows. *)
Definition keyboard : Type := list (list button).

(** ** Observable events, in program order *)

Inductive event : Type :=
| EvLog (msg : string)
| EvPrint (msg : string)
| EvPrintExn (msg : string) (er : exn)
| EvSetmode (m : numbering)
| EvSetup (ch : Z) (initial : level)
| EvInput (ch : Z) (v : level)
| EvOutput (ch : Z) (v : level)
| EvCleanup
| EvMcpOutput (pin : Z) (v : bool)
| EvLcdBegin (cols rows : Z)
| EvLcdClear
| EvLcdMessage (text : string)
| EvLcdBacklight (v : bool)
| EvReplyTo (m : message) (text : string)
| EvSendMessage (chat : Z) (text : string) (markup : option keyboard)
| EvAnswerCallbackQuery (id : string)
| EvPolling.

(** ** The monad: state, exceptions and a trace *)

Inductive outcome (A : Type) : Type :=
| Ret (a : A)
| Raise (e : exn).
Arguments Ret {A} a.
Arguments Raise {A} e.

Definition M (A : Type) : Type := world -> outcome A * world * list event.

Definition ret {A} (a : A) : M A := fun w => (Ret a, w, []).

Definition raise {A} (e : exn) : M A := fun w => (Raise e, w, []).

Definition bind {A B} (m : M A) (k : A -> M B) : M B :=
  fun w =>
    match m w with
    | (Ret a, w1, t1) =>
        match k a w1 with
        | (r, w2, t2) => (r, w2, t1 ++ t2)
        end
    | (Raise e, w1, t1) => (Raise e, w1, t1)
    end.

Definition emit (e : event) : M unit := fun w => (Ret tt, w, [e]).

#[global] Instance M_ret : MRet M := @ret.
#[global] Instance M_bind : MBind M := fun A B k m => bind m k.

(** Projections of a run. *)
Definition result_of {A} (r : outcome A * world * list event) : outcome A := fst (fst r).
Definition world_of {A} (r : outcome A * world * list event) : world := snd (fst r).
Definition trace_of {A} (r : outcome A * world * list event) : list event := snd r.

Definition logger_info (msg : string) : M unit := emit (EvLog msg).
Definition print (msg : string) : M unit := emit (EvPrint msg).

(** ** Driver operations *)

Module GPIO.

Definition no_mode : string :=
  "Please set pin numbering mode using GPIO.setmode(GPIO.BOARD) or GPIO.setmode(GPIO.BCM)".
Definition not_setup : string := "You must setup() the GPIO channel first".
Definition not_output : string := "The GPIO channel has not been set up as an OUTPUT".
Definition other_mode : string := "A different mode has already been set!".

Definition numbering_eqb (a b : numbering) : bool :=
  match a, b with
  | BCM, BCM | BOARD, BOARD => true
  | _, _ => false
  end.

(** [GPIO.setmode(m)] *)
Definition setmode (m : numbering) : M unit := fun w =>
  match gpio_mode (gpio w) with
  | Some m' =>
      if numbering_eqb m m' then (Ret tt, w, [EvSetmode m])
      else (Raise (ValueError other_mode), w, [])
  | None =>
      (Ret tt, mk_world (mk_gpio (Some m) (gpio_out (gpio w))) (lcd w), [EvSetmode m])
  end.

(** [GPIO.setup(ch, GPIO.OUT, initial=v)] *)
Definition setup_out (ch : Z) (v : level) : M unit := fun w =>
  match gpio_mode (gpio w) with
  | None => (Raise (RuntimeError no_mode), w, [])
  | Some m =>
      (Ret tt, mk_world (mk_gpio (Some m) (<[ch := v]> (gpio_out (gpio w)))) (lcd w),
       [EvSetup ch v])
  end.

(** [GPIO.input(ch)] *)
Definition input (ch : Z) : M level := fun w =>
  match gpio_mode (gpio w) with
  | None => (Raise (RuntimeError no_mode), w, [])
  | Some _ =>
      match gpio_out (gpio w) !! ch with
      | None => (Raise (RuntimeError not_setup), w, [])
      | Some v => (Ret v, w, [EvInput ch v])
      end
  end.

(** [GPIO.output(ch, v)] *)
Definition output (ch : Z) (v : level) : M unit := fun w =>
  match gpio_mode (gpio w) with
  | None => (Raise (RuntimeError no_mode), w, [])
  | Some m =>
      match gpio_out (gpio w) !! ch with
      | None => (Raise (RuntimeError not_output), w, [])
      | Some _ =>
          (Ret tt, mk_world (mk_gpio (Some m) (<[ch := v]> (gpio_out (gpio w)))) (lcd w),
           [EvOutput ch v])
      end
  end.

(** [GPIO.cleanup()]: every channel the program has set up goes back
    to an input and is forgotten; the numbering mode is forgotten. *)
Definition cleanup : M unit := fun w =>
  (Ret tt, mk_world (mk_gpio None ∅) (lcd w), [EvCleanup]).

(** The truth value of a reading: [if GPIO.input(ch):]. *)
Definition truthy (v : level) : bool :=
  match v with HIGH => true | LOW => false end.

End GPIO.

Module LCD.

Definition set_text (f : string -> string) (w : world) : world :=
  mk_world (gpio w)
    (mk_lcd (f (lcd_text (lcd w))) (lcd_backlight_pin (lcd w)) (lcd_backlight_attr (lcd w))).

(** [mcp.output(3, v)]: the expander pin that drives the backlight. *)
Definition mcp_output_backlight (v : bool) : M unit := fun w =>
  (Ret tt,
   mk_world (gpio w) (mk_lcd (lcd_text (lcd w)) v (lcd_backlight_attr (lcd w))),
   [EvMcpOutput 3 v]).

(** [lcd.begin(cols, rows)] *)
Definition begin (cols rows : Z) : M unit := fun w =>
  (Ret tt, set_text (fun _ => "") w, [EvLcdBegin cols rows]).

(** [lcd.clear()] *)
Definition clear : M unit := fun w =>
  (Ret tt, set_text (fun _ => "") w, [EvLcdClear]).

(** [lcd.message(text)] *)
Definition message (text : string) : M unit := fun w =>
  (Ret tt, set_text (fun old => old +:+ text) w, [EvLcdMessage text]).

(** [lcd.backlight = v] *)
Definition set_backlight (v : bool) : M unit := fun w =>
  (Ret tt,
   mk_world (gpio w) (mk_lcd (lcd_text (lcd w)) (lcd_backlight_pin (lcd w)) v),
   [EvLcdBacklight v]).

End LCD.

(** The bot client.  Sending is assumed to succeed: a failure of the
    channel shows up as an exception of [bot.polling] in the run loop. *)
Module Bot.

Definition reply_to (m : message) (text : string) : M unit :=
  emit (EvReplyTo m text).

Definition send_message (chat : Z) (text : string) (markup : option keyboard) : M unit :=
  emit (EvSendMessage chat text markup).

Definition answer_callback_query (id : string) : M unit :=
  emit (EvAnswerCallbackQuery id).

End Bot.

(** ** The script *)

Definition nl : string := String (ascii_of_nat 10) EmptyString.
Definition tab : string := String (ascii_of_nat 9) EmptyString.

(** Dictionary of relationship between relay identification and BCM pin,
    in insertion order. *)
Definition dict_relay_bcm : list (Z * Z) :=
  [(1, 23); (2, 24); (3, 25); (4, 16)].

(** [d[k]] *)
Fixpoint getitem (d : list (Z * Z)) (k : Z) : M Z :=
  match d with
  | [] => raise (KeyError k)
  | (k', v) :: d' => if Z.eqb k k' then mret v else getitem d' k
  end.

Definition em_bulb : string := "💡".
Definition em_status_changed : string := "👍".
Definition em_status_on : string := "🔴".
Definition em_status_off : string := "⚫".

(** [/start] command handler *)
Definition start_command (m : message) : M unit :=
  Bot.reply_to m
    ("Hi! I am the Raspberry Pi 3 Model B+ Telegram Bot made by Antonio Musarra's Blog." +:+ nl +:+
     "If you want more information on how to use this bot, use the /help command and" +:+ nl +:+
     "if you want to learn more, read the article https://www.dontesta.it");;
  LCD.clear;;
  LCD.message ("Welcome on Bot!" +:+ nl);;
  match last_name m with
  | Some ln => LCD.message (first_name m +:+ " " +:+ ln)
  | None => raise TypeError
  end.

(** [/help] command handler *)
Definition help_command (m : message) : M unit :=
  let keyboard := [[UrlButton "Go to the developer article" "https://www.dontesta.it"]] in
  Bot.send_message (chat_id m)
    ("This bot implements the architecture shown in the figure https://bit.ly/ArchitetturaRaspberryPiTelegramBot" +:+ nl +:+
     "Through this bot it is possible:" +:+ nl +:+ nl +:+
     tab +:+ "1) Activate and Deactivate one of the four relays using the command /set_relay_status" +:+ nl +:+
     tab +:+ "2) Check the status of the four relays using the command /get_relay_status" +:+ nl +:+
     tab +:+ "3) View schema design using the command /get_schema_design" +:+ nl +:+ nl)
    (Some keyboard);;
  LCD.clear;;
  LCD.message ("Request Command" +:+ nl);;
  LCD.message "/help".

(** [/set_relay_status] command handler *)
Definition set_relay_status_command (m : message) : M unit :=
  let keyboard :=
    [[CallbackButton (em_bulb +:+ " Relay 1") "relay-1";
      CallbackButton (em_bulb +:+ " Relay 2") "relay-2"];
     [CallbackButton (em_bulb +:+ " Relay 3") "relay-3";
      CallbackButton (em_bulb +:+ " Relay 4") "relay-4"]] in
  Bot.send_message (chat_id m)
    ("Select one of the Relays for which to change state." +:+ nl +:+
     "After change state you can view the new state with " +:+ nl +:+
     "the command /get_relay_status")
    (Some keyboard);;
  LCD.clear;;
  LCD.message ("Request Command" +:+ nl);;
  LCD.message "/set_relay_status".

(** The emoji that stands for the state read on an active-low line. *)
Definition status_emoji (v : level) : string :=
  if GPIO.truthy v then em_status_off else em_status_on.

(** The body of the loop of [get_relay_status_command] for one item. *)
Definition report_relay (m : message) (item : Z * Z) : M unit :=
  let '(relay_id, bcm_value) := item in
  v ← GPIO.input bcm_value;
  if GPIO.truthy v then
    logger_info ("Input on GPIO " +:+ Py.fmt_d bcm_value +:+ " is HIGH");;
    Bot.send_message (chat_id m)
      ("Status of the RelayId " +:+ Py.fmt_d relay_id +:+ " " +:+ em_status_off) None
  else
    logger_info ("Input on GPIO " +:+ Py.fmt_d bcm_value +:+ " is LOW");;
    Bot.send_message (chat_id m)
      ("Status of the RelayId " +:+ Py.fmt_d relay_id +:+ " " +:+ em_status_on) None.

(** [for x in xs: body(x)] *)
Fixpoint for_each {A} (xs : list A) (body : A -> M unit) : M unit :=
  match xs with
  | [] => mret tt
  | x :: xs' => body x;; for_each xs' body
  end.

(** [/get_relay_status] command handler *)
Definition get_relay_status_command (m : message) : M unit :=
  for_each dict_relay_bcm (report_relay m);;
  LCD.clear;;
  LCD.message ("Request Command" +:+ nl);;
  LCD.message "/get_relay_status".

(** [/get_schema_design] command handler *)
Definition get_schema_design_command (m : message) : M unit :=
  Bot.reply_to m
    ("This is the wiring diagram behind this Telegram bot" +:+
     " https://bit.ly/SchemaElettricoRaspberryPiTelegramBot");;
  LCD.clear;;
  LCD.message ("Request Command" +:+ nl);;
  LCD.message "/get_schema_design".

(** Construct and send message status of the relay to user *)
Definition send_set_relay_status_result (m : message) (relay_id : Z) (active : bool) : M unit :=
  let emoji := if active then em_status_on else em_status_off in
  Bot.send_message (chat_id m)
    (emoji +:+ " Changed status of the RelayId " +:+ Py.fmt_d relay_id +:+ " " +:+ em_status_changed)
    None.

Section Script.

(** The interpreter the script runs on. *)
Context {runtime : Runtime}.

(** [int(s)] as a computation. *)
Definition py_int (s : string) : M Z :=
  match Py.int s with
  | Some n => mret n
  | None => raise (InvalidLiteral s)
  end.

(** Implement the relay status callback *)
Definition set_relay_status_callback (query : callback_query) : M unit :=
  relay_id ← py_int (Py.drop 6 (query_data query));
  logger_info ("Changing status for Relay " +:+ Py.fmt_d relay_id);;
  bcm ← getitem dict_relay_bcm relay_id;
  logger_info ("BCM Pin for Relay " +:+ Py.fmt_d relay_id +:+ " is " +:+ Py.fmt_d bcm);;
  v ← GPIO.input bcm;
  active ← (if GPIO.truthy v then
              logger_info ("Input on GPIO " +:+ Py.fmt_d bcm +:+ " is HIGH...setting to LOW");;
              GPIO.output bcm LOW;;
              LCD.clear;;
              LCD.message ("Act. Relay " +:+ Py.fmt_d relay_id +:+ nl);;
              LCD.message "In listening...";;
              mret true
            else
              logger_info ("Input on GPIO " +:+ Py.fmt_d bcm +:+ " is LOW...setting to HIGH");;
              LCD.clear;;
              LCD.message ("De Act. Relay " +:+ Py.fmt_d relay_id +:+ nl);;
              LCD.message "In listening...";;
              GPIO.output bcm HIGH;;
              mret false);
  Bot.answer_callback_query (query_id query);;
  send_set_relay_status_result (query_message query) relay_id active.

(** An inline button click handler *)
Definition inline_query_callback (query : callback_query) : M unit :=
  let data := query_data query in
  if Py.startswith data "relay-" then set_relay_status_callback query
  else mret tt.

(** Initialize the GPIO for the relay module *)
Definition initialize_relay : M unit :=
  GPIO.setmode BCM;;
  GPIO.setup_out 23 HIGH;;
  GPIO.setup_out 24 HIGH;;
  GPIO.setup_out 25 HIGH;;
  GPIO.setup_out 16 HIGH.

(** Initialize the I2C LCD 1602 Display *)
Definition initialize_lcd : M unit :=
  LCD.mcp_output_backlight true;;
  LCD.begin 16 2;;
  LCD.message ("Rasp-Pi Telegram" +:+ nl);;
  LCD.message "Bot in action...".

(** Resource CleanUp *)
Definition destroy : M unit :=
  print "Raspberry Pi Telegram Bot is shutdown... ";;
  print "GPIO CleanUp... ";;
  GPIO.cleanup;;
  LCD.clear;;
  LCD.message ("Shutdown..." +:+ nl);;
  LCD.message "I'm not active";;
  LCD.set_backlight false.

(** ** The supervising run loop

    [bot.polling] hands every update it receives to the handler that
    matches it; the loop around it reacts to what the call does. *)

Inductive update : Type :=
| UStart (m : message)
| UHelp (m : message)
| USetRelayStatus (m : message)
| UGetRelayStatus (m : message)
| UGetSchemaDesign (m : message)
| UCallbackQuery (q : callback_query).

Definition dispatch (u : update) : M unit :=
  match u with
  | UStart m => start_command m
  | UHelp m => help_command m
  | USetRelayStatus m => set_relay_status_command m
  | UGetRelayStatus m => get_relay_status_command m
  | UGetSchemaDesign m => get_schema_design_command m
  | UCallbackQuery q => inline_query_callback q
  end.

(** What can happen while the process runs. *)
Inductive signal : Type :=
| Deliver (u : update)          (* an update arrives during [bot.polling] *)
| PollingRaises (er : exn)      (* [bot.polling] raises an [Exception] *)
| PollingReturns                (* [bot.polling] returns *)
| KeyboardInterrupt.            (* the operator interrupts the process *)

(** What the script cannot decide: whether [bot.polling] lets the
    exception of a handler through to its caller, and whether it
    catches the interrupt of the operator and returns, or lets the
    [KeyboardInterrupt] through. *)
Record transport : Type := mk_transport {
  reraises : bool;
  catches_interrupt : bool
}.

(** pyTelegramBotAPI: the exception of a handler leaves [bot.polling],
    the interrupt of the operator is caught and ends it. *)
Definition telebot : transport := mk_transport true true.

Inductive phase : Type :=
| Listening                     (* inside [bot.polling] *)
| Sleeping                      (* inside [while 1: time.sleep(3)] *)
| Exited (code : Z)             (* [sys.exit(code)] *)
| Crashed (e : exn).            (* an exception left the script *)

Record proc : Type := mk_proc {
  proc_phase : phase;
  proc_world : world;
  proc_trace : list event
}.

(** [bot.polling(none_stop=True, timeout=60)] is entered. *)
Definition bot_polling : M unit := emit EvPolling.

(** The [except Exception as er] branch followed by the next turn of
    the outer [while 1]. *)
Definition recover (er : exn) : M unit :=
  destroy;;
  emit (EvPrintExn "Unexpected exception: " er);;
  bot_polling.

(** The [except KeyboardInterrupt] branch of the script. *)
Definition interrupt : M unit := destroy.

Definition continue_with (p : proc) (m : M unit) (next : phase) : proc :=
  match m (proc_world p) with
  | (Ret _, w, t) => mk_proc next w (proc_trace p ++ t)
  | (Raise e, w, t) => mk_proc (Crashed e) w (proc_trace p ++ t)
  end.

Section RunLoop.

(** How the transport behaves inside [bot.polling]. *)
Variable tr : transport.

Definition step (p : proc) (s : signal) : proc :=
  match proc_phase p, s with
  | Listening, Deliver u =>
      match dispatch u (proc_world p) with
      | (Ret _, w, t) => mk_proc Listening w (proc_trace p ++ t)
      | (Raise e, w, t) =>
          let p' := mk_proc Listening w (proc_trace p ++ t) in
          if reraises tr then continue_with p' (recover e) Listening else p'
      end
  | Listening, PollingRaises er => continue_with p (recover er) Listening
  | Listening, PollingReturns => mk_proc Sleeping (proc_world p) (proc_trace p)
  | Listening, KeyboardInterrupt =>
      if catches_interrupt tr then mk_proc Sleeping (proc_world p) (proc_trace p)
      else continue_with p interrupt (Exited 0)
  | Sleeping, KeyboardInterrupt => continue_with p interrupt (Exited 0)
  | Sleeping, _ => p
  | Exited _, _ => p
  | Crashed _, _ => p
  end.

Definition run (p : proc) (sigs : list signal) : proc := fold_left step sigs p.

(** [main_loop] up to the first call of [bot.polling]. *)
Definition main_loop_enter : M unit :=
  initialize_relay;;
  initialize_lcd;;
  bot_polling.

(** The script from [if __name__ == '__main__':] up to the first call
    of [bot.polling]. *)
Definition script_enter : M unit :=
  print "Raspberry Pi Telegram Bot is starting...";;
  print "Press CTRL+C to terminate Bot";;
  main_loop_enter.

(** [main_loop()] as the script calls it, on the signals [sigs], from
    the state [w] of the hardware at process start. *)
Definition main_loop (w : world) (sigs : list signal) : proc :=
  run (continue_with (mk_proc Listening w []) script_enter Listening) sigs.

End RunLoop.

(** The GPIO driver when the process starts, and after [GPIO.cleanup()]. *)
Definition gpio_released : gpio_state := mk_gpio None ∅.

Definition power_on (l : lcd_state) : world := mk_world gpio_released l.

(** ** Reading traces and states *)

(** The level [set_relay_status_callback] writes after reading [v]. *)
Definition toggled (v : level) : level :=
  if GPIO.truthy v then LOW else HIGH.

(** Texts sent to the caller, in order. *)
Fixpoint replies (t : list event) : list string :=
  match t with
  | [] => []
  | EvReplyTo _ text :: t' => text :: replies t'
  | EvSendMessage _ text _ :: t' => text :: replies t'
  | _ :: t' => replies t'
  end.

Definition is_reply (e : event) : bool :=
  match e with
  | EvReplyTo _ _ | EvSendMessage _ _ _ => true
  | _ => false
  end.

Definition is_ack (e : event) : bool :=
  match e with
  | EvAnswerCallbackQuery _ => true
  | _ => false
  end.

Definition is_display (e : event) : bool :=
  match e with
  | EvLcdClear | EvLcdMessage _ | EvLcdBegin _ _ | EvLcdBacklight _ | EvMcpOutput _ _ => true
  | _ => false
  end.

(** A call that changes what a pin drives. *)
Definition is_pin_write (e : event) : bool :=
  match e with
  | EvOutput _ _ | EvSetup _ _ | EvSetmode _ | EvCleanup => true
  | _ => false
  end.

(** A call of [initialize_relay] or [initialize_lcd] that no other
    function of the script makes. *)
Definition is_init (e : event) : bool :=
  match e with
  | EvSetmode _ | EvSetup _ _ | EvMcpOutput _ _ | EvLcdBegin _ _ => true
  | _ => false
  end.

(** Every event that satisfies [p] comes before every event that
    satisfies [q]. *)
Fixpoint all_before (p q : event -> bool) (t : list event) : bool :=
  match t with
  | [] => true
  | e :: t' => (if q e then negb (existsb p t') else true) && all_before p q t'
  end.

Definition status_line (relay_id : Z) (v : level) : string :=
  "Status of the RelayId " +:+ Py.fmt_d relay_id +:+ " " +:+ status_emoji v.

Definition changed_line (relay_id : Z) (v : level) : string :=
  status_emoji v +:+ " Changed status of the RelayId " +:+ Py.fmt_d relay_id +:+ " " +:+ em_status_changed.

(** The relay ids of the registry, in its order. *)
Definition relay_ids : list Z := map fst dict_relay_bcm.

(** ** Inputs, predicates and tactics used by the statements *)

Ltac run_m :=
  unfold mbind, M_bind, mret, M_ret, bind, ret, raise, emit,
    logger_info, print, bot_polling;
  cbn -[lookup insert for_each];
  unfold LCD.set_text;
  cbn -[lookup insert for_each].

Definition lcd_blank : lcd_state := mk_lcd "" false false.

(** The hardware once [initialize_relay] and [initialize_lcd] have run. *)
Definition world_listening : world :=
  world_of ((initialize_relay;; initialize_lcd) (power_on lcd_blank)).

Definition a_message : message := mk_message 7 42 "Ada" (Some "Lovelace").

Definition click (data : string) : callback_query := mk_query "cb1" data a_message.

(** [C1], as the specification states it: the handler returns, a text
    reply reaches the caller, and the hardware is as before. *)
Definition unknown_relay_is_reported (q : callback_query) (w : world) : Prop :=
  let r := inline_query_callback q w in
  result_of r = Ret tt /\ replies (trace_of r) <> [] /\ world_of r = w.

(** The scenario of the specification: relay 2 on, the others off. *)
Definition world_relay2_on : world :=
  world_of (set_relay_status_callback (click "relay-2") world_listening).

(** [C6], as the specification states it, on the trace of one toggle. *)
Definition ack_reply_then_display (t : list event) : Prop :=
  all_before is_ack is_reply t = true /\ all_before is_reply is_display t = true.

(** A computation that makes no call of [initialize_relay] or
    [initialize_lcd], and that leaves a released driver released. *)
Definition quiet {A} (m : M A) : Prop :=
  forall w,
    filter is_init (trace_of (m w)) = [] /\
    (gpio w = gpio_released -> gpio (world_of (m w)) = gpio_released).

Definition is_polling (e : event) : bool :=
  match e with
  | EvPolling => true
  | _ => false
  end.

(** The calls of [initialize_relay] and [initialize_lcd] that set the
    hardware up. *)
Definition init_calls : list event :=
  [EvSetmode BCM; EvSetup 23 HIGH; EvSetup 24 HIGH; EvSetup 25 HIGH; EvSetup 16 HIGH;
   EvMcpOutput 3 true; EvLcdBegin 16 2].

(** The calls of [destroy]. *)
Definition shutdown_calls : list event :=
  [EvPrint "Raspberry Pi Telegram Bot is shutdown... "; EvPrint "GPIO CleanUp... ";
   EvCleanup; EvLcdClear; EvLcdMessage ("Shutdown..." +:+ nl);
   EvLcdMessage "I'm not active"; EvLcdBacklight false].

Definition shutdown_text : string := "Shutdown..." +:+ nl +:+ "I'm not active".

(** Signals that come from the channel: an update or an error. *)
Definition is_channel_signal (s : signal) : bool :=
  match s with
  | Deliver _ | PollingRaises _ => true
  | PollingReturns | KeyboardInterrupt => false
  end.

(** [C4], as the specification states it, on the process after the
    recovery: it listens again, every pin of the registry is at the
    level of start-up, and the display shows the shutdown text. *)
Definition recovered_at_safe_level (p : proc) : Prop :=
  proc_phase p = Listening /\
  (forall relay_id bcm,
      In (relay_id, bcm) dict_relay_bcm ->
      gpio_out (gpio (proc_world p)) !! bcm = Some HIGH) /\
  lcd_text (lcd (proc_world p)) = shutdown_text.

(** Relay 3 is switched on, then the channel fails. *)
Definition fault_with_relay3_on : list signal :=
  [Deliver (UCallbackQuery (click "relay-3")); PollingRaises (ChannelError "timed out")].

(** The text [start_command] replies with. *)
Definition greeting_text : string :=
  "Hi! I am the Raspberry Pi 3 Model B+ Telegram Bot made by Antonio Musarra's Blog." +:+ nl +:+
  "If you want more information on how to use this bot, use the /help command and" +:+ nl +:+
  "if you want to learn more, read the article https://www.dontesta.it".

(** The handlers of the commands that only answer with a fixed text,
    each with the name of its command. *)
Definition text_commands : list ((message -> M unit) * string) :=
  [(help_command, "/help");
   (set_relay_status_command, "/set_relay_status");
   (get_schema_design_command, "/get_schema_design")].

Definition is_callback (u : update) : bool :=
  match u with
  | UCallbackQuery _ => true
  | _ => false
  end.

(** A call that reads or writes the level of a pin. *)
Definition is_pin_io (e : event) : bool :=
  match e with
  | EvInput _ _ | EvOutput _ _ => true
  | _ => false
  end.

(** The buttons of the inline keyboards sent to the caller, in order. *)
Fixpoint offered_buttons (t : list event) : list button :=
  match t with
  | [] => []
  | EvSendMessage _ _ (Some rows) :: t' => concat rows ++ offered_buttons t'
  | _ :: t' => offered_buttons t'
  end.

(** The button of a relay: its label and the token it sends back. *)
Definition relay_button (relay_id : Z) : button :=
  CallbackButton (em_bulb +:+ " Relay " +:+ Py.fmt_d relay_id)
    ("relay-" +:+ Py.fmt_d relay_id).






(** ** Running the primitives *)

Lemma bind_run {A B} (m : M A) (k : A -> M B) (w : world) :
  (m ≫= k) w =
  match m w with
  | (Ret a, w1, t1) => match k a w1 with (r, w2, t2) => (r, w2, t1 ++ t2) end
  | (Raise e, w1, t1) => (Raise e, w1, t1)
  end.
Proof. reflexivity. Qed.

Lemma getitem_unknown relay_id :
  ~ In relay_id relay_ids ->
  getitem dict_relay_bcm relay_id = raise (KeyError relay_id).
Proof.
  unfold relay_ids, dict_relay_bcm. simpl. intros Hn.
  destruct (Z.eqb_spec relay_id 1) as [-> | _]; [exfalso; apply Hn; tauto |].
  destruct (Z.eqb_spec relay_id 2) as [-> | _]; [exfalso; apply Hn; tauto |].
  destruct (Z.eqb_spec relay_id 3) as [-> | _]; [exfalso; apply Hn; tauto |].
  destruct (Z.eqb_spec relay_id 4) as [-> | _]; [exfalso; apply Hn; tauto |].
  reflexivity.
Qed.

(** The run of the callback on a configured relay whose pin is set up. *)
Lemma toggle_run q relay_id bcm m v w :
  Py.int (Py.drop 6 (query_data q)) = Some relay_id ->
  In (relay_id, bcm) dict_relay_bcm ->
  gpio_mode (gpio w) = Some m ->
  gpio_out (gpio w) !! bcm = Some v ->
  exists t,
    set_relay_status_callback q w =
    (Ret tt,
     mk_world (mk_gpio (Some m) (<[bcm := toggled v]> (gpio_out (gpio w))))
       (mk_lcd ((if GPIO.truthy v then "Act. Relay " else "De Act. Relay ")
                +:+ Py.fmt_d relay_id +:+ nl +:+ "In listening...")
          (lcd_backlight_pin (lcd w)) (lcd_backlight_attr (lcd w))),
     t) /\
    replies t = [changed_line relay_id (toggled v)] /\
    filter is_ack t = [EvAnswerCallbackQuery (query_id q)] /\
    all_before is_ack is_reply t = true /\
    all_before is_display is_ack t = true /\
    all_before is_display is_reply t = true /\
    existsb is_display t = true.
Proof.
  intros Hint Hin Hm Hv.
  destruct w as [[gm go] l]. simpl in Hm, Hv. subst gm.
  unfold set_relay_status_callback, py_int. rewrite Hint.
  unfold dict_relay_bcm in Hin. simpl in Hin.
  destruct Hin as [H | [H | [H | [H | []]]]]; inversion H; subst; clear H;
    run_m; unfold GPIO.input; run_m; rewrite Hv; destruct v; run_m;
    unfold GPIO.output; run_m; rewrite Hv; run_m;
    (eexists; split; [reflexivity | repeat split; reflexivity]).
Qed.

(** The run of the status command when every configured pin is set up;
    [st] gives the level of the pin of each relay. *)
Lemma status_run msg m (st : Z -> level) w :
  gpio_mode (gpio w) = Some m ->
  (forall relay_id bcm,
      In (relay_id, bcm) dict_relay_bcm ->
      gpio_out (gpio w) !! bcm = Some (st relay_id)) ->
  exists t,
    get_relay_status_command msg w =
    (Ret tt,
     mk_world (gpio w)
       (mk_lcd ("Request Command" +:+ nl +:+ "/get_relay_status")
          (lcd_backlight_pin (lcd w)) (lcd_backlight_attr (lcd w))),
     t) /\
    replies t = map (fun relay_id => status_line relay_id (st relay_id)) relay_ids.
Proof.
  intros Hm Hst.
  assert (H1 := Hst 1 23). assert (H2 := Hst 2 24).
  assert (H3 := Hst 3 25). assert (H4 := Hst 4 16).
  unfold dict_relay_bcm in H1, H2, H3, H4. simpl in H1, H2, H3, H4.
  destruct w as [[gm go] l]. simpl in *. subst gm.
  unfold get_relay_status_command, dict_relay_bcm, for_each, report_relay.
  run_m. unfold GPIO.input. run_m.
  rewrite H1 by tauto. destruct (st 1); run_m;
    (rewrite H2 by tauto); destruct (st 2); run_m;
    (rewrite H3 by tauto); destruct (st 3); run_m;
    (rewrite H4 by tauto); destruct (st 4); run_m;
    (eexists; split; reflexivity).
Qed.

Lemma recover_run er w :
  recover er w =
  (Ret tt,
   mk_world gpio_released (mk_lcd shutdown_text (lcd_backlight_pin (lcd w)) false),
   shutdown_calls ++ [EvPrintExn "Unexpected exception: " er; EvPolling]).
Proof. reflexivity. Qed.

(** A handler raises while the loop listens, and the transport lets
    the exception leave [bot.polling]. *)
Lemma raise_step tr p u e w' t :
  proc_phase p = Listening ->
  reraises tr = true ->
  dispatch u (proc_world p) = (Raise e, w', t) ->
  step tr p (Deliver u) =
  mk_proc Listening
    (mk_world gpio_released (mk_lcd shutdown_text (lcd_backlight_pin (lcd w')) false))
    (proc_trace p ++ t ++ shutdown_calls ++
     [EvPrintExn "Unexpected exception: " e; EvPolling]).
Proof.
  intros Hp Hr E. unfold step. rewrite Hp, E, Hr.
  unfold continue_with. cbn [proc_world proc_trace].
  rewrite recover_run, <- app_assoc. reflexivity.
Qed.

(** ** Toggle of a relay that is not configured *)

(** C1 (amended): a callback token [relay-<n>] whose number [n], as
    [int()] reads it, is not a key of [dict_relay_bcm] makes the handler
    raise [KeyError n].  The exception leaves [inline_query_callback];
    the only thing done before it is one log line (no acknowledgment,
    no reply), and the handler leaves the pins and the display
    unchanged.  When the transport lets the exception leave
    [bot.polling], [main_loop] then treats it as a channel error: it
    runs [destroy], which releases every pin and writes the shutdown
    text, prints the exception and calls [bot.polling] again. *)
Theorem unknown_relay_raises_key_error q relay_id w :
  Py.startswith (query_data q) "relay-" = true ->
  Py.int (Py.drop 6 (query_data q)) = Some relay_id ->
  ~ In relay_id relay_ids ->
  inline_query_callback q w =
  (Raise (KeyError relay_id), w,
   [EvLog ("Changing status for Relay " +:+ Py.fmt_d relay_id)]) /\
  (forall tr p,
      proc_phase p = Listening ->
      proc_world p = w ->
      reraises tr = true ->
      step tr p (Deliver (UCallbackQuery q)) =
      mk_proc Listening
        (mk_world gpio_released (mk_lcd shutdown_text (lcd_backlight_pin (lcd w)) false))
        (proc_trace p ++
         [EvLog ("Changing status for Relay " +:+ Py.fmt_d relay_id)] ++
         shutdown_calls ++
         [EvPrintExn "Unexpected exception: " (KeyError relay_id); EvPolling])).
Proof.
  intros Hp Hint Hn.
  assert (E : inline_query_callback q w =
              (Raise (KeyError relay_id), w,
               [EvLog ("Changing status for Relay " +:+ Py.fmt_d relay_id)])).
  { unfold inline_query_callback. rewrite Hp.
    unfold set_relay_status_callback, py_int. rewrite Hint.
    unfold mbind, M_bind, bind, mret, M_ret, ret, logger_info, emit.
    cbv beta iota.
    rewrite (getitem_unknown _ Hn). reflexivity. }
  split; [exact E |].
  intros tr p Hph Hw Hr. subst w.
  exact (raise_step tr p (UCallbackQuery q) _ _ _ Hph Hr E).
Qed.

(** ** Toggle is an involution *)

(** C2: for a configured relay whose pin is set up at any level [v],
    two toggles in a row both succeed, the first leaves the pin at the
    other level, the second brings the driver back to its original
    state, and the reply of the second toggle carries the state text of
    the original level [v]. *)
Theorem toggle_twice_restores q relay_id bcm m v w :
  Py.int (Py.drop 6 (query_data q)) = Some relay_id ->
  In (relay_id, bcm) dict_relay_bcm ->
  gpio_mode (gpio w) = Some m ->
  gpio_out (gpio w) !! bcm = Some v ->
  let r1 := set_relay_status_callback q w in
  let r2 := set_relay_status_callback q (world_of r1) in
  result_of r1 = Ret tt /\
  result_of r2 = Ret tt /\
  gpio_out (gpio (world_of r1)) !! bcm = Some (toggled v) /\
  toggled v <> v /\
  gpio (world_of r2) = gpio w /\
  replies (trace_of r1) = [changed_line relay_id (toggled v)] /\
  replies (trace_of r2) = [changed_line relay_id v].
Proof.
  intros Hint Hin Hm Hv r1 r2.
  destruct (toggle_run q relay_id bcm m v w Hint Hin Hm Hv) as (t1 & E1 & R1 & _).
  assert (Hv1 : gpio_out (gpio (world_of r1)) !! bcm = Some (toggled v)).
  { subst r1. rewrite E1. simpl. apply lookup_insert_eq. }
  assert (Hm1 : gpio_mode (gpio (world_of r1)) = Some m).
  { subst r1. rewrite E1. reflexivity. }
  destruct (toggle_run q relay_id bcm m (toggled v) (world_of r1) Hint Hin Hm1 Hv1)
    as (t2 & E2 & R2 & _).
  assert (Htt : toggled (toggled v) = v) by (destruct v; reflexivity).
  subst r2. rewrite E2. subst r1. rewrite E1. simpl.
  repeat split; try assumption.
  - apply lookup_insert_eq.
  - destruct v; discriminate.
  - rewrite Htt, insert_insert_eq.
    destruct w as [[gm go] l]. simpl in *. subst gm.
    f_equal. apply insert_id. assumption.
  - rewrite R2, Htt. reflexivity.
Qed.

(** ** Polarity *)

(** In the registry a pin belongs to one relay only. *)
Lemma dict_pin_injective r1 b1 r2 b2 :
  In (r1, b1) dict_relay_bcm -> In (r2, b2) dict_relay_bcm ->
  b1 = b2 -> r1 = r2.
Proof.
  unfold dict_relay_bcm. simpl.
  intros [H1 | [H1 | [H1 | [H1 | []]]]] [H2 | [H2 | [H2 | [H2 | []]]]] E;
    inversion H1; inversion H2; subst; try reflexivity; discriminate.
Qed.

(** C3: with every configured pin set up, [st] giving the level of each
    relay's pin: the status query reports each relay with the state text
    of its level, the toggle reports the relay with the state text of
    the level it has just written, a status query after the toggle
    reports that same text for that relay, and in both paths the text
    of LOW is the "on" emoji and the text of HIGH the "off" emoji. *)
Theorem polarity_same_in_both_paths q msg relay_id bcm m (st : Z -> level) w :
  Py.int (Py.drop 6 (query_data q)) = Some relay_id ->
  In (relay_id, bcm) dict_relay_bcm ->
  gpio_mode (gpio w) = Some m ->
  (forall r b, In (r, b) dict_relay_bcm -> gpio_out (gpio w) !! b = Some (st r)) ->
  let rq := get_relay_status_command msg w in
  let rt := set_relay_status_callback q w in
  let rq' := get_relay_status_command msg (world_of rt) in
  let st' := fun r => if Z.eqb r relay_id then toggled (st relay_id) else st r in
  replies (trace_of rq) = map (fun r => status_line r (st r)) [1; 2; 3; 4] /\
  gpio_out (gpio (world_of rt)) !! bcm = Some (st' relay_id) /\
  replies (trace_of rt) = [changed_line relay_id (st' relay_id)] /\
  replies (trace_of rq') = map (fun r => status_line r (st' r)) [1; 2; 3; 4] /\
  (forall r v, status_line r v =
     "Status of the RelayId " +:+ Py.fmt_d r +:+ " " +:+
     match v with LOW => em_status_on | HIGH => em_status_off end) /\
  (forall r v, changed_line r v =
     match v with LOW => em_status_on | HIGH => em_status_off end +:+
     " Changed status of the RelayId " +:+ Py.fmt_d r +:+ " " +:+ em_status_changed) /\
  em_status_on <> em_status_off.
Proof.
  intros Hint Hin Hm Hst rq rt rq' st'.
  destruct (status_run msg m st w Hm Hst) as (tq & Eq & Rq).
  destruct (toggle_run q relay_id bcm m (st relay_id) w Hint Hin Hm (Hst _ _ Hin))
    as (tt' & Et & Rt & _).
  assert (Hm' : gpio_mode (gpio (world_of rt)) = Some m).
  { subst rt. rewrite Et. reflexivity. }
  assert (Hst' : forall r b, In (r, b) dict_relay_bcm ->
                             gpio_out (gpio (world_of rt)) !! b = Some (st' r)).
  { intros r b Hrb. subst rt st'. rewrite Et. simpl.
    destruct (Z.eqb_spec r relay_id) as [-> | Hne].
    - assert (b = bcm) as ->.
      { clear -Hrb Hin. unfold dict_relay_bcm in *. simpl in *.
        destruct Hrb as [H1 | [H1 | [H1 | [H1 | []]]]];
          destruct Hin as [H2 | [H2 | [H2 | [H2 | []]]]];
          inversion H1; inversion H2; subst; try reflexivity; discriminate. }
      apply lookup_insert_eq.
    - rewrite lookup_insert_ne; [now apply Hst |].
      intros E. apply Hne. symmetry. exact (dict_pin_injective _ _ _ _ Hin Hrb E). }
  destruct (status_run msg m st' (world_of rt) Hm' Hst') as (tq' & Eq' & Rq').
  subst rq rq'. rewrite Eq, Eq'. simpl trace_of.
  assert (Hself : st' relay_id = toggled (st relay_id)).
  { subst st'. simpl. now rewrite Z.eqb_refl. }
  repeat split.
  - exact Rq.
  - rewrite Hself. subst rt. rewrite Et. simpl. apply lookup_insert_eq.
  - rewrite Hself. subst rt. rewrite Et. exact Rt.
  - exact Rq'.
  - intros r []; reflexivity.
  - intros r []; reflexivity.
  - discriminate.
Qed.

(** ** The status command *)

(** C7: for every assignment [st] of levels to the pins of the four
    relays, the status command returns and sends exactly four lines, for
    the relays 1, 2, 3, 4 in this order, each with the state text of the
    level of its relay. *)
Theorem status_lines_in_registry_order msg m (st : Z -> level) w :
  gpio_mode (gpio w) = Some m ->
  (forall r b, In (r, b) dict_relay_bcm -> gpio_out (gpio w) !! b = Some (st r)) ->
  let r := get_relay_status_command msg w in
  result_of r = Ret tt /\
  replies (trace_of r) =
  [status_line 1 (st 1); status_line 2 (st 2); status_line 3 (st 3); status_line 4 (st 4)] /\
  relay_ids = [1; 2; 3; 4].
Proof.
  intros Hm Hst r.
  destruct (status_run msg m st w Hm Hst) as (t & E & R).
  subst r. rewrite E. repeat split. exact R.
Qed.

(** ** Callback tokens that are not relay tokens *)

(** C10: a callback whose data does not start with [relay-] makes the
    handler return at once: nothing is logged, read, written, displayed,
    acknowledged or sent, and the hardware is as before. *)
Theorem other_callback_is_ignored q w :
  Py.startswith (query_data q) "relay-" = false ->
  inline_query_callback q w = (Ret tt, w, []).
Proof.
  intros Hp. unfold inline_query_callback. rewrite Hp. reflexivity.
Qed.

(** ** Order of acknowledgment, reply and display update *)

(** C6 (amended): a toggle of a configured relay whose pin is set up
    returns, acknowledges the callback exactly once, sends exactly one
    reply, sends the acknowledgment before the reply, and finishes the
    display update before the acknowledgment, hence before the reply. *)
Theorem display_then_ack_then_reply q relay_id bcm m v w :
  Py.int (Py.drop 6 (query_data q)) = Some relay_id ->
  In (relay_id, bcm) dict_relay_bcm ->
  gpio_mode (gpio w) = Some m ->
  gpio_out (gpio w) !! bcm = Some v ->
  let r := set_relay_status_callback q w in
  result_of r = Ret tt /\
  filter is_ack (trace_of r) = [EvAnswerCallbackQuery (query_id q)] /\
  length (replies (trace_of r)) = 1%nat /\
  existsb is_display (trace_of r) = true /\
  all_before is_ack is_reply (trace_of r) = true /\
  all_before is_display is_ack (trace_of r) = true /\
  all_before is_display is_reply (trace_of r) = true.
Proof.
  intros Hint Hin Hm Hv r.
  destruct (toggle_run q relay_id bcm m v w Hint Hin Hm Hv)
    as (t & E & R & A & O1 & O2 & O3 & D).
  subst r. rewrite E. simpl result_of. simpl trace_of.
  repeat split; try assumption.
  rewrite R. reflexivity.
Qed.

(** ** Start-up *)

(** C5: from the state of the driver at process start,
    [initialize_relay] returns and leaves every pin of the registry set
    up as an output at HIGH, the level whose state text is "off"; a
    status query in that state reports the four relays as off; and this
    is the state in which the run loop starts to listen. *)
Theorem startup_pins_off (l : lcd_state) :
  let r := initialize_relay (power_on l) in
  result_of r = Ret tt /\
  (forall relay_id bcm,
      In (relay_id, bcm) dict_relay_bcm ->
      gpio_out (gpio (world_of r)) !! bcm = Some HIGH) /\
  status_emoji HIGH = em_status_off /\
  (forall msg,
      replies (trace_of (get_relay_status_command msg (world_of r))) =
      map (fun relay_id => "Status of the RelayId " +:+ Py.fmt_d relay_id +:+ " " +:+ em_status_off)
        [1; 2; 3; 4]) /\
  (forall tr,
      proc_phase (main_loop tr (power_on l) []) = Listening /\
      gpio (proc_world (main_loop tr (power_on l) [])) = gpio (world_of r)).
Proof.
  repeat split.
  - unfold dict_relay_bcm. simpl.
    intros relay_id bcm [H | [H | [H | [H | []]]]]; inversion H; reflexivity.
Qed.

(** ** The status command leaves the pins alone *)

(** One turn of the loop of the status command: its result and trace
    depend on the driver state only, and the world is unchanged. *)
Lemma report_relay_frame msg item (g : gpio_state) :
  exists r t,
    filter is_pin_write t = [] /\
    forall l, report_relay msg item (mk_world g l) = (r, mk_world g l, t).
Proof.
  destruct item as [relay_id bcm]. destruct g as [gm go].
  unfold report_relay. run_m. unfold GPIO.input. run_m.
  destruct gm as [m |]; [destruct (go !! bcm) as [[] |] |]; run_m;
    (eexists _, _; split; [| intros l; reflexivity]; reflexivity).
Qed.

Lemma report_loop_frame msg items (g : gpio_state) :
  exists r t,
    filter is_pin_write t = [] /\
    forall l, for_each items (report_relay msg) (mk_world g l) = (r, mk_world g l, t).
Proof.
  induction items as [| item items IH].
  - exists (Ret tt), []. split; [reflexivity | intros l; reflexivity].
  - destruct (report_relay_frame msg item g) as (r1 & t1 & F1 & E1).
    destruct IH as (r2 & t2 & F2 & E2).
    destruct r1 as [[] | e].
    + exists r2, (t1 ++ t2). split.
      * rewrite filter_app, F1, F2. reflexivity.
      * intros l. simpl for_each. rewrite bind_run, E1, E2. reflexivity.
    + exists (Raise e), t1. split; [exact F1 |].
      intros l. simpl for_each. rewrite bind_run, E1. reflexivity.
Qed.

(** The whole command, whatever the display shows when it starts. *)
Lemma status_frame msg (g : gpio_state) :
  exists r t,
    filter is_pin_write t = [] /\
    forall l,
      result_of (get_relay_status_command msg (mk_world g l)) = r /\
      trace_of (get_relay_status_command msg (mk_world g l)) = t /\
      gpio (world_of (get_relay_status_command msg (mk_world g l))) = g /\
      world_of (get_relay_status_command msg
                  (world_of (get_relay_status_command msg (mk_world g l)))) =
      world_of (get_relay_status_command msg (mk_world g l)).
Proof.
  destruct (report_loop_frame msg dict_relay_bcm g) as (r & t & F & E).
  destruct r as [[] | e].
  - exists (Ret tt),
      (t ++ [EvLcdClear; EvLcdMessage ("Request Command" +:+ nl);
             EvLcdMessage "/get_relay_status"]).
    split; [rewrite filter_app, F; reflexivity |].
    intros l. unfold get_relay_status_command.
    rewrite !bind_run, !E. run_m. rewrite !E. repeat split.
  - exists (Raise e), t. split; [exact F |].
    intros l. unfold get_relay_status_command.
    rewrite !bind_run, !E. run_m. rewrite !E. repeat split.
Qed.

(** C8: the status command never changes what a pin drives: the driver
    state after the call is the one before it and the call makes no
    writing call on the driver; a second call right after the first has
    the same result and the same trace (so the same replies), and leaves
    the same world. *)
Theorem status_query_never_writes msg w :
  let r1 := get_relay_status_command msg w in
  let r2 := get_relay_status_command msg (world_of r1) in
  gpio (world_of r1) = gpio w /\
  filter is_pin_write (trace_of r1) = [] /\
  result_of r2 = result_of r1 /\
  trace_of r2 = trace_of r1 /\
  replies (trace_of r2) = replies (trace_of r1) /\
  world_of r2 = world_of r1.
Proof.
  intros r1 r2. destruct w as [g l].
  destruct (status_frame msg g) as (r & t & F & H).
  destruct (H l) as (Hr & Ht & Hg & Hw).
  fold r1 in Hr, Ht, Hg, Hw. fold r2 in Hw.
  assert (E : world_of r1 = mk_world g (lcd (world_of r1))).
  { destruct (world_of r1) as [g' l']. simpl in Hg. subst g'. reflexivity. }
  destruct (H (lcd (world_of r1))) as (Hr2 & Ht2 & _ & _).
  rewrite <- E in Hr2, Ht2. fold r2 in Hr2, Ht2.
  simpl gpio. rewrite Hg, Ht, Hr2, Hr, Ht2.
  repeat split; try assumption.
Qed.

(** ** The run loop: what no handler ever does *)

Lemma quiet_ret {A} (a : A) : quiet (mret a).
Proof. intros w. split; [reflexivity | intros H; exact H]. Qed.

Lemma quiet_raise {A} (e : exn) : quiet (@raise A e).
Proof. intros w. split; [reflexivity | intros H; exact H]. Qed.

Lemma quiet_emit (e : event) : is_init e = false -> quiet (emit e).
Proof.
  intros He w. split; [| intros H; exact H].
  unfold emit. simpl. rewrite filter_cons. rewrite He. reflexivity.
Qed.

Lemma quiet_bind {A B} (m : M A) (k : A -> M B) :
  quiet m -> (forall a, quiet (k a)) -> quiet (m ≫= k).
Proof.
  intros Hm Hk w. rewrite bind_run.
  destruct (Hm w) as [Tm Gm].
  destruct (m w) as [[[a | e] w1] t1]; simpl in Tm, Gm.
  - destruct (Hk a w1) as [Tk Gk].
    destruct (k a w1) as [[r w2] t2]. simpl in *.
    split; [rewrite filter_app, Tm, Tk; reflexivity | auto].
  - split; assumption.
Qed.

Lemma quiet_input ch : quiet (GPIO.input ch).
Proof.
  intros w. unfold GPIO.input.
  destruct (gpio_mode (gpio w)); [destruct (gpio_out (gpio w) !! ch) |];
    (split; [reflexivity | intros H; exact H]).
Qed.

Lemma quiet_output ch v : quiet (GPIO.output ch v).
Proof.
  intros w. unfold GPIO.output.
  destruct (gpio_mode (gpio w)) eqn:Em;
    [destruct (gpio_out (gpio w) !! ch) |];
    (split; [reflexivity |]); intros H; try exact H.
  rewrite H in Em. discriminate Em.
Qed.

Lemma quiet_cleanup : quiet GPIO.cleanup.
Proof. intros w. split; [reflexivity | intros _; reflexivity]. Qed.

Lemma quiet_lcd_clear : quiet LCD.clear.
Proof. intros w. split; [reflexivity | intros H; exact H]. Qed.

Lemma quiet_lcd_message text : quiet (LCD.message text).
Proof. intros w. split; [reflexivity | intros H; exact H]. Qed.

Lemma quiet_lcd_backlight v : quiet (LCD.set_backlight v).
Proof. intros w. split; [reflexivity | intros H; exact H]. Qed.

Lemma quiet_getitem d k : quiet (getitem d k).
Proof.
  induction d as [| [k' v] d IH]; simpl.
  - apply quiet_raise.
  - destruct (Z.eqb k k'); [apply quiet_ret | exact IH].
Qed.

Lemma quiet_for_each {A} (xs : list A) (body : A -> M unit) :
  (forall x, quiet (body x)) -> quiet (for_each xs body).
Proof.
  intros Hb. induction xs as [| x xs IH]; simpl.
  - apply quiet_ret.
  - apply quiet_bind; [apply Hb | intros _; exact IH].
Qed.

Create HintDb quiet.
#[local] Hint Resolve quiet_ret quiet_raise quiet_input quiet_output quiet_cleanup
  quiet_lcd_clear quiet_lcd_message quiet_lcd_backlight quiet_getitem : quiet.

Ltac quiet_steps :=
  repeat first
    [ apply quiet_bind; [| intros ?]
    | apply quiet_emit; reflexivity
    | apply quiet_for_each; intros ?
    | solve [auto with quiet]
    | match goal with
      | |- quiet (if ?c then _ else _) => destruct c
      | |- quiet (match ?x with _ => _ end) => destruct x
      | |- quiet (let '(_, _) := ?x in _) => destruct x
      end ].

Lemma quiet_destroy : quiet destroy.
Proof. unfold destroy, print. quiet_steps. Qed.

Lemma quiet_dispatch u : quiet (dispatch u).
Proof.
  destruct u; simpl;
    unfold start_command, help_command, set_relay_status_command,
      get_relay_status_command, get_schema_design_command, inline_query_callback,
      set_relay_status_callback, send_set_relay_status_result, report_relay, py_int,
      Bot.reply_to, Bot.send_message, Bot.answer_callback_query, logger_info;
    quiet_steps.
Qed.

Lemma quiet_recover er : quiet (recover er).
Proof. unfold recover, bot_polling. quiet_steps. Qed.

Lemma continue_with_quiet p m next :
  quiet m ->
  exists t,
    proc_trace (continue_with p m next) = proc_trace p ++ t /\
    filter is_init t = [] /\
    (gpio (proc_world p) = gpio_released ->
     gpio (proc_world (continue_with p m next)) = gpio_released).
Proof.
  intros Hq. unfold continue_with.
  destruct (Hq (proc_world p)) as [T G].
  destruct (m (proc_world p)) as [[[[] | e] w] t]; simpl in T, G;
    exists t; repeat split; assumption.
Qed.

Lemma step_quiet tr p s :
  exists t,
    proc_trace (step tr p s) = proc_trace p ++ t /\
    filter is_init t = [] /\
    (gpio (proc_world p) = gpio_released ->
     gpio (proc_world (step tr p s)) = gpio_released).
Proof.
  assert (Hstay : exists t, proc_trace p = proc_trace p ++ t /\
                            filter is_init t = [] /\
                            (gpio (proc_world p) = gpio_released ->
                             gpio (proc_world p) = gpio_released)).
  { exists []. rewrite app_nil_r. repeat split. auto. }
  unfold step. destruct (proc_phase p); try exact Hstay.
  - destruct s.
    + destruct (quiet_dispatch u (proc_world p)) as [T G].
      destruct (dispatch u (proc_world p)) as [[[[] | e] w] t]; simpl in T, G.
      * exists t. repeat split; assumption.
      * destruct (reraises tr).
        -- destruct (continue_with_quiet (mk_proc Listening w (proc_trace p ++ t))
                       (recover e) Listening (quiet_recover e)) as (t' & E' & T' & G').
           cbn [proc_trace proc_world] in E', G'. exists (t ++ t'). rewrite E'.
           split; [now rewrite app_assoc |].
           split; [rewrite filter_app, T, T'; reflexivity | auto].
        -- exists t. repeat split; assumption.
    + apply continue_with_quiet, quiet_recover.
    + exact Hstay.
    + destruct (catches_interrupt tr); [exact Hstay |].
      apply continue_with_quiet, quiet_destroy.
  - destruct s; try exact Hstay.
    apply continue_with_quiet, quiet_destroy.
Qed.

Lemma run_quiet tr sigs : forall p,
  exists t,
    proc_trace (run tr p sigs) = proc_trace p ++ t /\
    filter is_init t = [] /\
    (gpio (proc_world p) = gpio_released ->
     gpio (proc_world (run tr p sigs)) = gpio_released).
Proof.
  induction sigs as [| s sigs IH]; intros p; simpl.
  - exists []. rewrite app_nil_r. repeat split. auto.
  - destruct (step_quiet tr p s) as (t1 & E1 & T1 & G1).
    destruct (IH (step tr p s)) as (t2 & E2 & T2 & G2).
    exists (t1 ++ t2). unfold run in *. rewrite E2, E1.
    split; [now rewrite app_assoc |].
    split; [rewrite filter_app, T1, T2; reflexivity | auto].
Qed.

Lemma step_stays_listening tr p s :
  proc_phase p = Listening ->
  is_channel_signal s = true ->
  proc_phase (step tr p s) = Listening.
Proof.
  intros Hp Hs. unfold step. rewrite Hp.
  destruct s; try discriminate Hs.
  - destruct (dispatch u (proc_world p)) as [[[[] | e] w] t]; [reflexivity |].
    destruct (reraises tr); [| reflexivity].
    unfold continue_with. rewrite recover_run. reflexivity.
  - unfold continue_with. rewrite recover_run. reflexivity.
Qed.

Lemma run_stays_listening tr sigs : forall p,
  proc_phase p = Listening ->
  forallb is_channel_signal sigs = true ->
  proc_phase (run tr p sigs) = Listening.
Proof.
  induction sigs as [| s sigs IH]; intros p Hp Hs; simpl; [exact Hp |].
  simpl in Hs. apply andb_prop in Hs as [Hs1 Hs2].
  apply IH; [apply step_stays_listening |]; assumption.
Qed.

Lemma existsb_quiet (p : event -> bool) (t : list event) :
  filter p t = [] -> existsb p t = false.
Proof.
  induction t as [| e t IH]; [reflexivity |].
  rewrite filter_cons. simpl. destruct (p e); simpl.
  - intros H. discriminate H.
  - exact IH.
Qed.

Lemma all_before_quiet (p q : event -> bool) (t : list event) :
  filter p t = [] -> all_before p q t = true.
Proof.
  induction t as [| e t IH]; [reflexivity |].
  rewrite filter_cons. simpl. destruct (p e) eqn:Ep; simpl.
  - intros H. discriminate H.
  - intros H. rewrite (IH H), (existsb_quiet p t H).
    destruct (q e); reflexivity.
Qed.

Lemma all_before_app_quiet (p q : event -> bool) (t1 t2 : list event) :
  all_before p q t1 = true -> filter p t2 = [] ->
  all_before p q (t1 ++ t2) = true.
Proof.
  intros H1 H2. induction t1 as [| e t1 IH]; simpl.
  - apply all_before_quiet, H2.
  - simpl in H1. apply andb_prop in H1 as [Ha Hb].
    rewrite (IH Hb), andb_true_r.
    destruct (q e); [| reflexivity].
    rewrite existsb_app, (existsb_quiet p t2 H2), orb_false_r. exact Ha.
Qed.

(** One channel error while the loop listens. *)
Lemma fault_step tr p er :
  proc_phase p = Listening ->
  step tr p (PollingRaises er) =
  mk_proc Listening
    (mk_world gpio_released
       (mk_lcd shutdown_text (lcd_backlight_pin (lcd (proc_world p))) false))
    (proc_trace p ++ shutdown_calls ++
     [EvPrintExn "Unexpected exception: " er; EvPolling]).
Proof.
  intros Hp. unfold step. rewrite Hp. unfold continue_with.
  rewrite recover_run. reflexivity.
Qed.

(** ** Recovery from a channel error *)

(** C4 (amended): when [bot.polling] raises an [Exception] while the
    loop listens, the loop runs [destroy] and calls [bot.polling] again.
    [destroy] releases every pin through [GPIO.cleanup] (no pin is set
    up any more, so none is driven LOW; none is set to HIGH either, and
    reading a pin raises until it is set up again), clears the display
    and writes the shutdown text.  Whatever sequence of updates and
    channel errors arrives, the loop is still listening afterwards: no
    channel error ends the process. *)
Theorem channel_error_recovers tr p er sigs :
  proc_phase p = Listening ->
  forallb is_channel_signal sigs = true ->
  let q := step tr p (PollingRaises er) in
  proc_phase q = Listening /\
  proc_trace q =
    proc_trace p ++ shutdown_calls ++ [EvPrintExn "Unexpected exception: " er; EvPolling] /\
  gpio (proc_world q) = gpio_released /\
  (forall ch, gpio_out (gpio (proc_world q)) !! ch = None) /\
  (forall ch, GPIO.input ch (proc_world q) =
              (Raise (RuntimeError GPIO.no_mode), proc_world q, [])) /\
  lcd_text (lcd (proc_world q)) = shutdown_text /\
  proc_phase (run tr p sigs) = Listening.
Proof.
  intros Hp Hs q.
  assert (Eq : q = _) by exact (fault_step tr p er Hp).
  rewrite Eq. cbn [proc_phase proc_trace proc_world gpio lcd lcd_text].
  split; [reflexivity |]. split; [reflexivity |]. split; [reflexivity |].
  split; [intros ch; apply lookup_empty |].
  split; [intros ch; reflexivity |].
  split; [reflexivity |].
  apply run_stays_listening; assumption.
Qed.

(** ** Initialisation happens once *)

Lemma main_loop_app tr w pre post :
  main_loop tr w (pre ++ post) = run tr (main_loop tr w pre) post.
Proof. unfold main_loop, run. apply fold_left_app. Qed.

(** C9: in every run of the script the calls of [initialize_relay] and
    [initialize_lcd] occur exactly once, and all of them before the
    first call of [bot.polling] (so none after a later call).  After a
    channel error the loop calls [bot.polling] again with the driver as
    [destroy] left it, released, and the driver stays so for the rest
    of the run. *)
Theorem init_runs_once tr l sigs :
  let p := main_loop tr (power_on l) sigs in
  filter is_init (proc_trace p) = init_calls /\
  existsb is_polling (proc_trace p) = true /\
  all_before is_init is_polling (proc_trace p) = true /\
  (forall pre er post,
      sigs = pre ++ PollingRaises er :: post ->
      proc_phase (main_loop tr (power_on l) pre) = Listening ->
      let q := main_loop tr (power_on l) (pre ++ [PollingRaises er]) in
      proc_phase q = Listening /\
      last (proc_trace q) = Some EvPolling /\
      gpio (proc_world q) = gpio_released /\
      gpio (proc_world p) = gpio_released).
Proof.
  intros p.
  set (p0 := continue_with (mk_proc Listening (power_on l) []) script_enter Listening).
  assert (E0 : proc_trace p0 =
               [EvPrint "Raspberry Pi Telegram Bot is starting...";
                EvPrint "Press CTRL+C to terminate Bot"] ++ init_calls ++
               [EvLcdMessage ("Rasp-Pi Telegram" +:+ nl); EvLcdMessage "Bot in action...";
                EvPolling]) by reflexivity.
  destruct (run_quiet tr sigs p0) as (t & Et & Tt & _).
  assert (Ep : proc_trace p = proc_trace p0 ++ t) by exact Et.
  repeat split.
  - rewrite Ep, filter_app, Tt, E0. reflexivity.
  - rewrite Ep, existsb_app, E0. reflexivity.
  - rewrite Ep. apply all_before_app_quiet; [rewrite E0; reflexivity | exact Tt].
  - rewrite main_loop_app. change (run tr ?x [?s]) with (step tr x s).
    rewrite (fault_step tr _ er H0). reflexivity.
  - rewrite main_loop_app. change (run tr ?x [?s]) with (step tr x s).
    rewrite (fault_step tr _ er H0). cbn [proc_trace].
    change [EvPrintExn "Unexpected exception: " er; EvPolling]
      with ([EvPrintExn "Unexpected exception: " er] ++ [EvPolling]).
    rewrite !app_assoc. apply last_snoc.
  - rewrite main_loop_app. change (run tr ?x [?s]) with (step tr x s).
    rewrite (fault_step tr _ er H0). reflexivity.
  - subst p. rewrite H.
    change (pre ++ PollingRaises er :: post) with (pre ++ [PollingRaises er] ++ post).
    rewrite app_assoc, main_loop_app.
    destruct (run_quiet tr post
                (main_loop tr (power_on l) (pre ++ [PollingRaises er])))
      as (_ & _ & _ & G).
    apply G. rewrite main_loop_app.
    change (run tr ?x [?s]) with (step tr x s).
    rewrite (fault_step tr _ er H0). reflexivity.
Qed.

(** ** More on the command handlers *)

(** X1: [start_command] always sends the greeting and never touches the
    driver.  With a last name it returns and the display shows the
    welcome line and the full name; without one the concatenation of
    the name raises [TypeError] after the reply was sent and the welcome
    line written, so the display is left with the welcome line only. *)
Theorem start_command_last_name m w :
  let r := start_command m w in
  replies (trace_of r) = [greeting_text] /\
  gpio (world_of r) = gpio w /\
  match last_name m with
  | Some ln =>
      result_of r = Ret tt /\
      lcd_text (lcd (world_of r)) =
      "Welcome on Bot!" +:+ nl +:+ first_name m +:+ " " +:+ ln
  | None =>
      result_of r = Raise TypeError /\
      lcd_text (lcd (world_of r)) = "Welcome on Bot!" +:+ nl
  end.
Proof.
  destruct w as [g l]. unfold start_command.
  destruct (last_name m) as [ln |]; run_m; repeat split.
Qed.

(** X2: the handlers of [/help], [/set_relay_status] and
    [/get_schema_design] keep no state: each always returns, sends the
    same messages whatever the hardware state, leaves the driver alone,
    overwrites the display with "Request Command" and its own name, and
    a second call changes nothing more. *)
Theorem text_commands_are_stateless h name m w w' :
  In (h, name) text_commands ->
  result_of (h m w) = Ret tt /\
  trace_of (h m w) = trace_of (h m w') /\
  length (replies (trace_of (h m w))) = 1%nat /\
  gpio (world_of (h m w)) = gpio w /\
  lcd_text (lcd (world_of (h m w))) = "Request Command" +:+ nl +:+ name /\
  world_of (h m (world_of (h m w))) = world_of (h m w).
Proof.
  unfold text_commands. simpl.
  intros [H | [H | [H | []]]]; inversion H; subst; clear H;
    destruct w as [g l]; destruct w' as [g' l']; repeat split.
Qed.

(** X3: the handler of an update that is not a callback query never
    writes a pin: it leaves the driver state as it was and makes no
    writing call on the driver, whether it returns or raises.  In the
    loop such an update leaves the driver as it was when its handler
    returns, or when the transport keeps the exception; when the handler
    raises and the exception leaves [bot.polling], the pins are released
    by the [destroy] of [main_loop]. *)
Theorem other_handlers_leave_pins u w :
  is_callback u = false ->
  gpio (world_of (dispatch u w)) = gpio w /\
  filter is_pin_write (trace_of (dispatch u w)) = [] /\
  (forall tr p,
      proc_phase p = Listening -> proc_world p = w ->
      gpio (proc_world (step tr p (Deliver u))) =
      match result_of (dispatch u w) with
      | Ret _ => gpio w
      | Raise _ => if reraises tr then gpio_released else gpio w
      end).
Proof.
  intros Hu.
  assert (H : gpio (world_of (dispatch u w)) = gpio w /\
              filter is_pin_write (trace_of (dispatch u w)) = []).
  { destruct w as [g l].
    destruct u as [m | m | m | m | m | q]; try discriminate Hu; simpl dispatch.
    - unfold start_command. destruct (last_name m); run_m; split; reflexivity.
    - split; reflexivity.
    - split; reflexivity.
    - destruct (status_frame m g) as (r & t & F & H).
      destruct (H l) as (_ & Ht & Hg & _). rewrite Ht. split; assumption.
    - split; reflexivity. }
  destruct H as [Hg Hf]. split; [exact Hg |]. split; [exact Hf |].
  intros tr p Hp Hw. subst w.
  destruct (dispatch u (proc_world p)) as [[[[] | e] w'] t] eqn:E;
    unfold world_of, result_of in *; simpl in Hg |- *.
  - unfold step. rewrite Hp, E. exact Hg.
  - destruct (reraises tr) eqn:Hr.
    + rewrite (raise_step tr p u e w' t Hp Hr E). reflexivity.
    + unfold step. rewrite Hp, E, Hr. exact Hg.
Qed.

(** ** More on the toggle *)

(** The driver calls of a toggle that succeeds. *)
Lemma toggle_run_io q relay_id bcm m v w :
  Py.int (Py.drop 6 (query_data q)) = Some relay_id ->
  In (relay_id, bcm) dict_relay_bcm ->
  gpio_mode (gpio w) = Some m ->
  gpio_out (gpio w) !! bcm = Some v ->
  filter is_pin_io (trace_of (set_relay_status_callback q w)) =
  [EvInput bcm v; EvOutput bcm (toggled v)].
Proof.
  intros Hint Hin Hm Hv.
  destruct w as [[gm go] l]. simpl in Hm, Hv. subst gm.
  unfold set_relay_status_callback, py_int. rewrite Hint.
  unfold dict_relay_bcm in Hin. simpl in Hin.
  destruct Hin as [H | [H | [H | [H | []]]]]; inversion H; subst; clear H;
    run_m; unfold GPIO.input; run_m; rewrite Hv; destruct v; run_m;
    unfold GPIO.output; run_m; rewrite Hv; reflexivity.
Qed.

(** X4: a toggle that succeeds reads its own pin once and writes it
    once, and touches nothing else of the driver: the numbering mode and
    the level of every other channel, so of every other relay, are as
    before. *)
Theorem toggle_touches_own_pin_only q relay_id bcm m v w :
  Py.int (Py.drop 6 (query_data q)) = Some relay_id ->
  In (relay_id, bcm) dict_relay_bcm ->
  gpio_mode (gpio w) = Some m ->
  gpio_out (gpio w) !! bcm = Some v ->
  let r := set_relay_status_callback q w in
  filter is_pin_io (trace_of r) = [EvInput bcm v; EvOutput bcm (toggled v)] /\
  gpio_mode (gpio (world_of r)) = Some m /\
  (forall ch, ch <> bcm ->
              gpio_out (gpio (world_of r)) !! ch = gpio_out (gpio w) !! ch) /\
  (forall other b, In (other, b) dict_relay_bcm -> other <> relay_id ->
                   gpio_out (gpio (world_of r)) !! b = gpio_out (gpio w) !! b).
Proof.
  intros Hint Hin Hm Hv r.
  destruct (toggle_run q relay_id bcm m v w Hint Hin Hm Hv) as (t & E & _).
  split; [exact (toggle_run_io q relay_id bcm m v w Hint Hin Hm Hv) |].
  subst r. rewrite E. simpl.
  split; [reflexivity |]. split.
  - intros ch Hne. apply lookup_insert_ne. congruence.
  - intros other b Hob Hne. apply lookup_insert_ne.
    intros Eb. apply Hne. exact (dict_pin_injective _ _ _ _ Hob Hin (eq_sym Eb)).
Qed.

(** X5: after a toggle that succeeds the display holds exactly the two
    lines of that toggle, whatever it showed before, and its first line
    agrees with the reply: "Act. Relay n" when the pin was set to LOW
    and the reply carries the "on" emoji, "De Act. Relay n" when it was
    set to HIGH and the reply carries the "off" emoji. *)
Theorem toggle_display_agrees_with_reply q relay_id bcm m v w :
  Py.int (Py.drop 6 (query_data q)) = Some relay_id ->
  In (relay_id, bcm) dict_relay_bcm ->
  gpio_mode (gpio w) = Some m ->
  gpio_out (gpio w) !! bcm = Some v ->
  let r := set_relay_status_callback q w in
  gpio_out (gpio (world_of r)) !! bcm = Some (toggled v) /\
  match toggled v with
  | LOW =>
      lcd_text (lcd (world_of r)) =
        "Act. Relay " +:+ Py.fmt_d relay_id +:+ nl +:+ "In listening..." /\
      replies (trace_of r) =
        [em_status_on +:+ " Changed status of the RelayId " +:+ Py.fmt_d relay_id +:+
         " " +:+ em_status_changed]
  | HIGH =>
      lcd_text (lcd (world_of r)) =
        "De Act. Relay " +:+ Py.fmt_d relay_id +:+ nl +:+ "In listening..." /\
      replies (trace_of r) =
        [em_status_off +:+ " Changed status of the RelayId " +:+ Py.fmt_d relay_id +:+
         " " +:+ em_status_changed]
  end.
Proof.
  intros Hint Hin Hm Hv r.
  destruct (toggle_run q relay_id bcm m v w Hint Hin Hm Hv) as (t & E & R & _).
  subst r. rewrite E. simpl world_of. simpl trace_of. rewrite R.
  split; [simpl; apply lookup_insert_eq |].
  destruct v; split; reflexivity.
Qed.

(** ** The keyboard and the registry *)

(** X7: the keyboard of [/set_relay_status] offers one button per relay
    of the registry, in the order of the registry, each labelled with
    its relay; and the token of each button is one the callback handler
    accepts: clicked while the pin of that relay is set up, it toggles
    that pin and the handler returns. *)
Theorem keyboard_matches_registry m w0 :
  offered_buttons (trace_of (set_relay_status_command m w0)) = map relay_button relay_ids /\
  (forall relay_id bcm id msg mode v w,
      In (relay_id, bcm) dict_relay_bcm ->
      gpio_mode (gpio w) = Some mode ->
      gpio_out (gpio w) !! bcm = Some v ->
      let r := inline_query_callback (mk_query id ("relay-" +:+ Py.fmt_d relay_id) msg) w in
      result_of r = Ret tt /\
      gpio_out (gpio (world_of r)) !! bcm = Some (toggled v) /\
      replies (trace_of r) = [changed_line relay_id (toggled v)]).
Proof.
  split; [reflexivity |].
  intros relay_id bcm id msg mode v w Hin Hm Hv r.
  assert (Hp : Py.startswith ("relay-" +:+ Py.fmt_d relay_id) "relay-" = true /\
               Py.int (Py.drop 6 ("relay-" +:+ Py.fmt_d relay_id)) = Some relay_id).
  { clear -Hin. unfold dict_relay_bcm in Hin. simpl in Hin.
    destruct Hin as [H | [H | [H | [H | []]]]]; inversion H; split; reflexivity. }
  destruct Hp as [Hp Hint].
  destruct (toggle_run (mk_query id ("relay-" +:+ Py.fmt_d relay_id) msg)
              relay_id bcm mode v w Hint Hin Hm Hv) as (t & E & R & _).
  subst r. unfold inline_query_callback. cbn [query_data]. rewrite Hp, E.
  repeat split; [simpl; apply lookup_insert_eq | exact R].
Qed.

(** ** The status command when a pin cannot be read *)

Lemma for_each_no_display {A} (body : A -> M unit) (xs : list A) :
  (forall x w, filter is_display (trace_of (body x w)) = [] /\ world_of (body x w) = w) ->
  forall w,
    filter is_display (trace_of (for_each xs body w)) = [] /\
    world_of (for_each xs body w) = w.
Proof.
  intros Hb. induction xs as [| x xs IH]; intros w; [split; reflexivity |].
  change (for_each (x :: xs) body) with (body x ;; for_each xs body).
  rewrite bind_run.
  destruct (Hb x w) as [F1 W1].
  destruct (body x w) as [[[[] | e] w1] t1];
    unfold world_of, trace_of in F1, W1; simpl in F1, W1; subst w1;
    [| split; [exact F1 | reflexivity]].
  destruct (IH w) as [F2 W2].
  destruct (for_each xs body w) as [[r2 w2] t2].
  unfold world_of, trace_of in *. simpl in *. subst w2. split; [| reflexivity].
  rewrite filter_app, F1, F2. reflexivity.
Qed.

Lemma report_relay_no_display msg item w :
  filter is_display (trace_of (report_relay msg item w)) = [] /\
  world_of (report_relay msg item w) = w.
Proof.
  destruct item as [relay_id bcm]. destruct w as [[gm go] l].
  unfold report_relay. run_m. unfold GPIO.input. run_m.
  destruct gm as [m |]; [destruct (go !! bcm) as [[] |] |]; run_m; split; reflexivity.
Qed.

Lemma report_loop_no_display msg items w :
  filter is_display (trace_of (for_each items (report_relay msg) w)) = [] /\
  world_of (for_each items (report_relay msg) w) = w.
Proof. apply for_each_no_display. apply report_relay_no_display. Qed.

(** X8: when the status command fails it fails inside its loop, on the
    first pin that cannot be read: the display and the pins are as
    before and no display call was made.  With the numbering mode unset
    (the driver as [GPIO.cleanup] leaves it) it fails at once, before
    any message is sent.  When it returns, the display shows the command. *)
Theorem status_failure_keeps_display msg w :
  let r := get_relay_status_command msg w in
  (forall e, result_of r = Raise e ->
             world_of r = w /\ filter is_display (trace_of r) = []) /\
  (gpio_mode (gpio w) = None ->
   r = (Raise (RuntimeError GPIO.no_mode), w, [])) /\
  (result_of r = Ret tt ->
   lcd_text (lcd (world_of r)) = "Request Command" +:+ nl +:+ "/get_relay_status").
Proof.
  intros r. subst r. unfold get_relay_status_command. rewrite bind_run.
  split; [| split].
  - destruct (report_loop_no_display msg dict_relay_bcm w) as [F W].
    destruct (for_each dict_relay_bcm (report_relay msg) w) as [[[[] | e'] w1] t1];
      unfold world_of, trace_of in F, W; simpl in F, W; subst w1.
    + intros e He. run_m. discriminate He.
    + intros e _. split; [reflexivity | exact F].
  - intros Hm. destruct w as [[gm go] l]. simpl in Hm. subst gm. reflexivity.
  - destruct (report_loop_no_display msg dict_relay_bcm w) as [F W].
    destruct (for_each dict_relay_bcm (report_relay msg) w) as [[[[] | e'] w1] t1];
      unfold world_of, trace_of in F, W; simpl in F, W; subst w1.
    + intros _. destruct w as [g l]. reflexivity.
    + intros He. discriminate He.
Qed.

(** ** After the first recovery *)

(** With the driver released every handler leaves it released, reads
    and writes no pin and acknowledges no callback. *)
Lemma dispatch_released u l :
  let r := dispatch u (mk_world gpio_released l) in
  gpio (world_of r) = gpio_released /\
  filter is_pin_io (trace_of r) = [] /\
  filter is_ack (trace_of r) = [].
Proof.
  destruct u as [m | m | m | m | m | q]; simpl dispatch.
  - unfold start_command. destruct (last_name m); run_m; repeat split.
  - repeat split.
  - repeat split.
  - repeat split.
  - repeat split.
  - unfold inline_query_callback.
    destruct (Py.startswith (query_data q) "relay-"); [| repeat split].
    unfold set_relay_status_callback, py_int.
    destruct (Py.int (Py.drop 6 (query_data q))) as [relay_id |];
      [| run_m; repeat split].
    run_m.
    repeat match goal with
           | |- context [Z.eqb relay_id ?k] => destruct (Z.eqb relay_id k)
           end;
      run_m; repeat split.
Qed.

Lemma continue_with_released p m next :
  (forall l, gpio (world_of (m (mk_world gpio_released l))) = gpio_released /\
             filter is_pin_io (trace_of (m (mk_world gpio_released l))) = [] /\
             filter is_ack (trace_of (m (mk_world gpio_released l))) = []) ->
  gpio (proc_world p) = gpio_released ->
  exists t,
    proc_trace (continue_with p m next) = proc_trace p ++ t /\
    filter is_pin_io t = [] /\ filter is_ack t = [] /\
    gpio (proc_world (continue_with p m next)) = gpio_released.
Proof.
  intros Hm Hg. unfold continue_with.
  destruct (proc_world p) as [g l]. simpl in Hg. subst g.
  destruct (Hm l) as (G & F1 & F2).
  destruct (m (mk_world gpio_released l)) as [[[[] | e] w] t];
    exists t; repeat split; assumption.
Qed.

Lemma step_released tr p s :
  gpio (proc_world p) = gpio_released ->
  exists t,
    proc_trace (step tr p s) = proc_trace p ++ t /\
    filter is_pin_io t = [] /\ filter is_ack t = [] /\
    gpio (proc_world (step tr p s)) = gpio_released.
Proof.
  intros Hg.
  assert (Hstay : exists t, proc_trace p = proc_trace p ++ t /\
                            filter is_pin_io t = [] /\ filter is_ack t = [] /\
                            gpio (proc_world p) = gpio_released).
  { exists []. rewrite app_nil_r. repeat split. exact Hg. }
  assert (Hrec : forall e l,
             gpio (world_of (recover e (mk_world gpio_released l))) = gpio_released /\
             filter is_pin_io (trace_of (recover e (mk_world gpio_released l))) = [] /\
             filter is_ack (trace_of (recover e (mk_world gpio_released l))) = [])
    by (intros e l; repeat split).
  assert (Hdes : forall l,
             gpio (world_of (destroy (mk_world gpio_released l))) = gpio_released /\
             filter is_pin_io (trace_of (destroy (mk_world gpio_released l))) = [] /\
             filter is_ack (trace_of (destroy (mk_world gpio_released l))) = [])
    by (intros l; repeat split).
  unfold step. destruct (proc_phase p); try exact Hstay.
  - destruct s.
    + destruct (proc_world p) as [g l] eqn:Ew. simpl in Hg. subst g.
      destruct (dispatch_released u l) as (G & F1 & F2).
      destruct (dispatch u (mk_world gpio_released l)) as [[[[] | e] w] t];
        unfold world_of, trace_of in G, F1, F2; simpl in G, F1, F2.
      * exists t. repeat split; assumption.
      * destruct (reraises tr); [| exists t; repeat split; assumption].
        destruct (continue_with_released (mk_proc Listening w (proc_trace p ++ t))
                    (recover e) Listening (Hrec e) G) as (t' & E' & F1' & F2' & G').
        cbn [proc_trace] in E'. exists (t ++ t'). rewrite E'.
        split; [now rewrite app_assoc |].
        split; [rewrite filter_app, F1, F1'; reflexivity |].
        split; [rewrite filter_app, F2, F2'; reflexivity | exact G'].
    + apply continue_with_released; [apply Hrec | exact Hg].
    + exact Hstay.
    + destruct (catches_interrupt tr); [exact Hstay |].
      apply continue_with_released; [apply Hdes | exact Hg].
  - destruct s; try exact Hstay.
    apply continue_with_released; [apply Hdes | exact Hg].
Qed.

Lemma run_released tr sigs : forall p,
  gpio (proc_world p) = gpio_released ->
  exists t,
    proc_trace (run tr p sigs) = proc_trace p ++ t /\
    filter is_pin_io t = [] /\ filter is_ack t = [] /\
    gpio (proc_world (run tr p sigs)) = gpio_released.
Proof.
  induction sigs as [| s sigs IH]; intros p Hg.
  - exists []. rewrite app_nil_r. repeat split. exact Hg.
  - change (run tr p (s :: sigs)) with (run tr (step tr p s) sigs).
    destruct (step_released tr p s Hg) as (t1 & E1 & A1 & B1 & G1).
    destruct (IH _ G1) as (t2 & E2 & A2 & B2 & G2).
    exists (t1 ++ t2). rewrite E2, E1.
    split; [now rewrite app_assoc |].
    split; [rewrite filter_app, A1, A2; reflexivity |].
    split; [rewrite filter_app, B1, B2; reflexivity | exact G2].
Qed.

(** X12: once the loop has recovered from a channel error the relays
    are out of reach for the rest of the run: whatever updates and
    errors follow, no pin is read or written any more, no callback is
    acknowledged, and the driver stays released. *)
Theorem relays_unreachable_after_recovery tr p er sigs :
  proc_phase p = Listening ->
  let q := step tr p (PollingRaises er) in
  exists t,
    proc_trace (run tr q sigs) = proc_trace q ++ t /\
    filter is_pin_io t = [] /\
    filter is_ack t = [] /\
    gpio (proc_world (run tr q sigs)) = gpio_released.
Proof.
  intros Hp q. apply run_released.
  subst q. rewrite (fault_step tr p er Hp). reflexivity.
Qed.


(** ** How the process ends *)















(** X13: an exception of a handler that leaves [bot.polling] is caught
    by the [except Exception] of [main_loop] like a channel error:
    after what the handler did before it raised, the loop runs
    [destroy], so every pin is released and the display shows the
    shutdown text, prints the exception and calls [bot.polling] again. *)
Theorem handler_exception_in_loop tr p u e :
  proc_phase p = Listening ->
  reraises tr = true ->
  result_of (dispatch u (proc_world p)) = Raise e ->
  let r := dispatch u (proc_world p) in
  step tr p (Deliver u) =
    mk_proc Listening
      (mk_world gpio_released
         (mk_lcd shutdown_text (lcd_backlight_pin (lcd (world_of r))) false))
      (proc_trace p ++ trace_of r ++ shutdown_calls ++
       [EvPrintExn "Unexpected exception: " e; EvPolling]).
Proof.
  intros Hp Hr He r. subst r.
  destruct (dispatch u (proc_world p)) as [[[[] | e'] w] t] eqn:E;
    unfold result_of in He; simpl in He; [discriminate He |].
  injection He as ->.
  exact (raise_step tr p u e w t Hp Hr E).
Qed.

End Script.

(** ** Concrete runs

    The inputs of the runs below are plain ASCII, so that what the
    runtime makes of other literals plays no part in them; the runs are
    taken on a runtime that accepts none. *)

#[global] Instance plain_runtime : Runtime := {| int_other := fun _ => None |}.

(** C1 (as stated) fails: on the token [relay-5] a [KeyError] leaves the
    handler and nothing is sent to the caller. *)
Lemma unknown_relay_not_reported :
  ~ unknown_relay_is_reported (click "relay-5") world_listening.
Proof.
  unfold unknown_relay_is_reported. intros [H _].
  vm_compute in H. discriminate H.
Qed.

Lemma unknown_relay_raises_key_error_witness :
  inline_query_callback (click "relay-5") world_listening =
  (Raise (KeyError 5), world_listening, [EvLog "Changing status for Relay 5"]).
Proof.
  apply (unknown_relay_raises_key_error (click "relay-5") 5 world_listening).
  - reflexivity.
  - reflexivity.
  - unfold relay_ids. simpl. intros [H | [H | [H | [H | []]]]]; discriminate H.
Defined.

Lemma toggle_twice_restores_witness :
  let r1 := set_relay_status_callback (click "relay-2") world_listening in
  let r2 := set_relay_status_callback (click "relay-2") (world_of r1) in
  result_of r1 = Ret tt /\
  result_of r2 = Ret tt /\
  gpio_out (gpio (world_of r1)) !! 24 = Some (toggled HIGH) /\
  toggled HIGH <> HIGH /\
  gpio (world_of r2) = gpio world_listening /\
  replies (trace_of r1) = [changed_line 2 (toggled HIGH)] /\
  replies (trace_of r2) = [changed_line 2 HIGH].
Proof.
  apply (toggle_twice_restores (click "relay-2") 2 24 BCM HIGH world_listening).
  - reflexivity.
  - unfold dict_relay_bcm. simpl. tauto.
  - reflexivity.
  - reflexivity.
Defined.

Lemma polarity_same_in_both_paths_witness :
  replies (trace_of (set_relay_status_callback (click "relay-3") world_listening)) =
  [changed_line 3 LOW].
Proof.
  apply (polarity_same_in_both_paths (click "relay-3") a_message 3 25 BCM
           (fun _ => HIGH) world_listening).
  - reflexivity.
  - unfold dict_relay_bcm. simpl. tauto.
  - reflexivity.
  - unfold dict_relay_bcm. simpl.
    intros r b [H | [H | [H | [H | []]]]]; inversion H; reflexivity.
Defined.

Lemma status_lines_in_registry_order_witness :
  result_of (get_relay_status_command a_message world_relay2_on) = Ret tt /\
  replies (trace_of (get_relay_status_command a_message world_relay2_on)) =
  [status_line 1 HIGH; status_line 2 LOW; status_line 3 HIGH; status_line 4 HIGH] /\
  relay_ids = [1; 2; 3; 4].
Proof.
  apply (status_lines_in_registry_order a_message BCM
           (fun r => if Z.eqb r 2 then LOW else HIGH) world_relay2_on).
  - reflexivity.
  - unfold dict_relay_bcm. simpl.
    intros r b [H | [H | [H | [H | []]]]]; inversion H; reflexivity.
Defined.

Lemma other_callback_is_ignored_witness :
  inline_query_callback (click "rela-1") world_listening = (Ret tt, world_listening, []).
Proof.
  apply (other_callback_is_ignored (click "rela-1") world_listening).
  reflexivity.
Defined.

(** C6 (as stated) fails: the toggle of relay 1, which succeeds, writes
    the display before the acknowledgment and the reply are sent. *)
Lemma display_not_after_reply :
  ~ ack_reply_then_display
      (trace_of (set_relay_status_callback (click "relay-1") world_listening)).
Proof.
  unfold ack_reply_then_display. intros [_ H].
  vm_compute in H. discriminate H.
Qed.

Lemma display_then_ack_then_reply_witness :
  all_before is_display is_ack
    (trace_of (set_relay_status_callback (click "relay-1") world_listening)) = true.
Proof.
  apply (display_then_ack_then_reply (click "relay-1") 1 23 BCM HIGH world_listening).
  - reflexivity.
  - unfold dict_relay_bcm. simpl. tauto.
  - reflexivity.
  - reflexivity.
Defined.

Lemma startup_pins_off_witness :
  gpio_out (gpio (world_of (initialize_relay (power_on lcd_blank)))) !! 25 = Some HIGH.
Proof.
  apply (proj1 (proj2 (startup_pins_off lcd_blank)) 3 25).
  unfold dict_relay_bcm. simpl. tauto.
Defined.

(** C4 (as stated) fails: after the recovery the pin of relay 3 is not
    at the HIGH level of start-up; [GPIO.cleanup] has released it. *)
Lemma recovery_leaves_pins_released :
  ~ recovered_at_safe_level (main_loop telebot (power_on lcd_blank) fault_with_relay3_on).
Proof.
  intros (_ & H & _).
  assert (H3 := H 3 25). unfold dict_relay_bcm in H3. simpl In in H3.
  assert (E : gpio_out (gpio (proc_world
                (main_loop telebot (power_on lcd_blank) fault_with_relay3_on))) !! 25 = None)
    by reflexivity.
  rewrite E in H3. discriminate H3. tauto.
Qed.

Lemma channel_error_recovers_witness :
  lcd_text (lcd (proc_world
     (step telebot (main_loop telebot (power_on lcd_blank) [])
        (PollingRaises (ChannelError "timed out"))))) = shutdown_text.
Proof.
  apply (channel_error_recovers telebot (main_loop telebot (power_on lcd_blank) [])
           (ChannelError "timed out")
           [PollingRaises (ChannelError "timed out"); Deliver (UHelp a_message)]).
  - reflexivity.
  - reflexivity.
Defined.

Lemma init_runs_once_witness :
  gpio (proc_world (main_loop telebot (power_on lcd_blank)
                      ([Deliver (UCallbackQuery (click "relay-3"))] ++
                       PollingRaises (ChannelError "timed out") ::
                       [Deliver (UGetRelayStatus a_message)]))) = gpio_released.
Proof.
  apply (proj2 (proj2 (proj2 (init_runs_once telebot lcd_blank
           ([Deliver (UCallbackQuery (click "relay-3"))] ++
            PollingRaises (ChannelError "timed out") ::
            [Deliver (UGetRelayStatus a_message)]))))
         [Deliver (UCallbackQuery (click "relay-3"))]
         (ChannelError "timed out")
         [Deliver (UGetRelayStatus a_message)]).
  - reflexivity.
  - reflexivity.
Defined.

Lemma text_commands_are_stateless_witness :
  lcd_text (lcd (world_of (help_command a_message world_relay2_on))) =
  "Request Command" +:+ nl +:+ "/help".
Proof.
  apply (text_commands_are_stateless help_command "/help" a_message
           world_relay2_on world_listening).
  unfold text_commands. simpl. tauto.
Defined.

Lemma other_handlers_leave_pins_witness :
  gpio (world_of (dispatch (UGetRelayStatus a_message) world_relay2_on)) =
  gpio world_relay2_on.
Proof.
  apply (other_handlers_leave_pins (UGetRelayStatus a_message) world_relay2_on).
  reflexivity.
Defined.

Lemma toggle_touches_own_pin_only_witness :
  gpio_out (gpio (world_of (set_relay_status_callback (click "relay-2") world_listening)))
    !! 25 =
  gpio_out (gpio world_listening) !! 25.
Proof.
  apply (proj1 (proj2 (proj2 (toggle_touches_own_pin_only (click "relay-2") 2 24 BCM HIGH
                                world_listening eq_refl
                                (or_intror (or_introl eq_refl)) eq_refl eq_refl))) 25).
  discriminate.
Defined.

Lemma toggle_display_agrees_with_reply_witness :
  gpio_out (gpio (world_of (set_relay_status_callback (click "relay-4") world_listening)))
    !! 16 = Some (toggled HIGH).
Proof.
  apply (toggle_display_agrees_with_reply (click "relay-4") 4 16 BCM HIGH world_listening).
  - reflexivity.
  - unfold dict_relay_bcm. simpl. tauto.
  - reflexivity.
  - reflexivity.
Defined.

Lemma keyboard_matches_registry_witness :
  result_of (inline_query_callback (mk_query "cb9" ("relay-" +:+ Py.fmt_d 3) a_message)
               world_listening) = Ret tt.
Proof.
  apply (proj2 (keyboard_matches_registry a_message world_listening)
           3 25 "cb9" a_message BCM HIGH world_listening).
  - unfold dict_relay_bcm. simpl. tauto.
  - reflexivity.
  - reflexivity.
Defined.

Lemma status_failure_keeps_display_witness :
  get_relay_status_command a_message (world_of (destroy world_relay2_on)) =
  (Raise (RuntimeError GPIO.no_mode), world_of (destroy world_relay2_on), []).
Proof.
  apply (proj1 (proj2 (status_failure_keeps_display a_message
                         (world_of (destroy world_relay2_on))))).
  reflexivity.
Defined.

Lemma relays_unreachable_after_recovery_witness :
  exists t,
    proc_trace (run telebot
      (step telebot (main_loop telebot (power_on lcd_blank) []) (PollingRaises (ChannelError "reset")))
      [Deliver (UCallbackQuery (click "relay-1")); Deliver (UGetRelayStatus a_message)]) =
    proc_trace
      (step telebot (main_loop telebot (power_on lcd_blank) []) (PollingRaises (ChannelError "reset")))
    ++ t /\
    filter is_pin_io t = [] /\
    filter is_ack t = [] /\
    gpio (proc_world (run telebot
      (step telebot (main_loop telebot (power_on lcd_blank) []) (PollingRaises (ChannelError "reset")))
      [Deliver (UCallbackQuery (click "relay-1")); Deliver (UGetRelayStatus a_message)])) =
    gpio_released.
Proof.
  apply (relays_unreachable_after_recovery telebot (main_loop telebot (power_on lcd_blank) [])
           (ChannelError "reset")
           [Deliver (UCallbackQuery (click "relay-1")); Deliver (UGetRelayStatus a_message)]).
  reflexivity.
Defined.


Lemma handler_exception_in_loop_witness :
  gpio (proc_world (step telebot (main_loop telebot (power_on lcd_blank) [])
                      (Deliver (UStart (mk_message 8 42 "Ada" None))))) = gpio_released.
Proof.
  rewrite (handler_exception_in_loop telebot (main_loop telebot (power_on lcd_blank) [])
             (UStart (mk_message 8 42 "Ada" None)) TypeError eq_refl eq_refl eq_refl).
  reflexivity.
Defined.
